(** * azure_rm_securitygroup_facts: a shallow embedding

    The module [azure_rm_securitygroup_facts.py] answers one query per
    invocation: either the facts of one named network security group, or the
    facts of every security group of a resource group.  The class
    [AzureRMSecurityGroupFacts] is embedded method by method over a small
    monad that threads the instance ([self]) and the trace of calls made to
    collaborators, and that distinguishes the three ways a Python call ends:
    it returns, it raises, or the process exits through [fail]. *)

From Stdlib Require Import String List Bool ZArith Lia.
Import ListNotations.
Open Scope string_scope.
Open Scope list_scope.

Set Implicit Arguments.

(** ** Python values the module handles *)

(** Exception classes that the two [except] clauses of the module tell
    apart.  [CloudError] is [msrestazure.azure_exceptions.CloudError];
    [OtherException] stands for any other class deriving from [Exception];
    [NonException] for a [BaseException] outside [Exception]
    (KeyboardInterrupt, SystemExit). *)
Inductive exc_class : Type :=
| CloudError
| OtherException
| NonException.

(** An exception instance: its class, the HTTP status the provider answered
    with (when there is one) and the text [str(exc)] gives. *)
Record py_exc : Type := mk_exc {
  exc_cls : exc_class;
  status_code : option Z;
  exc_str : string
}.

(** [isinstance(e, CloudError)], the test of [except CloudError]. *)
Definition isinstance_CloudError (e : py_exc) : bool :=
  match exc_cls e with
  | CloudError => true
  | _ => false
  end.

(** [isinstance(e, Exception)], the test of [except Exception]. *)
Definition isinstance_Exception (e : py_exc) : bool :=
  match exc_cls e with
  | NonException => false
  | _ => true
  end.

(** The provider's way of saying that the named resource does not exist:
    a [CloudError] carrying status 404. *)
Definition is_not_found (e : py_exc) : bool :=
  isinstance_CloudError e &&
  match status_code e with
  | Some c => Z.eqb c 404
  | None => false
  end.

(** A string attribute that may still be [None]. *)
Definition py_str := option string.

(** ['{0}'.format(v)] for such a value. *)
Definition format0 (v : py_str) : string :=
  match v with
  | Some s => s
  | None => "None"
  end.

(** How a call ends. [Exited] is the process ending in [fail_json]. *)
Inductive outcome (A : Type) : Type :=
| Returned (a : A)
| Raised (e : py_exc)
| Exited (msg : string).

Arguments Returned {A} a.
Arguments Raised {A} e.
Arguments Exited {A} msg.

(** What a collaborator answers to one call. *)
Inductive call_result (A : Type) : Type :=
| Ret (a : A)
| Raise (e : py_exc).

Arguments Ret {A} a.
Arguments Raise {A} e.

(** Calls to collaborators, in the order they are made. *)
Inductive event : Type :=
| EvLog (msg : string)
| EvGet (resource_group name : py_str)
| EvList (resource_group : py_str).

Definition is_provider_call (ev : event) : bool :=
  match ev with
  | EvLog _ => false
  | EvGet _ _ => true
  | EvList _ => true
  end.

Definition provider_calls (tr : list event) : list event :=
  filter is_provider_call tr.

(** [AZURE_OBJECT_CLASS = 'NetworkSecurityGroup'] *)
Definition AZURE_OBJECT_CLASS : string := "NetworkSecurityGroup".

(** One entry of [module_arg_spec]. *)
Record arg_spec : Type := mk_arg_spec {
  arg_required : bool;
  arg_type : string
}.

(** The caller's input: [kwargs] restricted to the keys of
    [module_arg_spec]; the argument parser supplies every declared key, with
    [None] for an optional one that was not given. *)
Record Query : Type := mk_query {
  q_name : py_str;
  q_resource_group : string
}.

(** [self.module_arg_spec] *)
Definition module_arg_spec : list (string * arg_spec) :=
  [ ("name", mk_arg_spec false "str");
    ("resource_group", mk_arg_spec true "str") ].

(** [kwargs[key]]; a key the caller did not supply is a [KeyError]. *)
Definition kwargs_get (kwargs : Query) (key : string) : call_result py_str :=
  if String.eqb key "name" then Ret (q_name kwargs)
  else if String.eqb key "resource_group" then
         Ret (Some (q_resource_group kwargs))
  else Raise (mk_exc OtherException None key).

Section Facts.

(** The provider's raw resource objects and the mapping they flatten to are
    opaque here. *)
Variable Raw : Type.
Variable Attrs : Type.

(** Python's truth value of a raw resource object ([__bool__], [__len__];
    [true] for an object that defines neither). *)
Variable obj_truthy : Raw -> bool.

(** The flattening of a raw resource into its declared attributes. *)
Variable flatten : Raw -> Attrs.

(** What [network_security_groups.get] hands back: [None] or an object. *)
Inductive py_item : Type :=
| PyNone
| PyObj (r : Raw).

(** [if item:] *)
Definition truthy (item : py_item) : bool :=
  match item with
  | PyNone => false
  | PyObj r => obj_truthy r
  end.

(** A serialized resource, tagged with the object class it was serialized
    as. *)
Record NormalizedResource : Type := mk_normalized {
  object_class : string;
  attributes : Attrs
}.

(** Modelled from the spec: [serialize_obj] is a method of the base class
    [AzureRMModuleBase] (module [azure_rm_common], outside this file).  The
    spec describes it as [flatten(obj, type_label)]: the raw resource is
    flattened to a mapping and tagged with the label the caller supplies. *)
Definition serialize_obj (obj : Raw) (class_name : string)
  : NormalizedResource :=
  {| object_class := class_name; attributes := flatten obj |}.

(** [self.results] *)
Record ResultEnvelope : Type := mk_envelope {
  changed : bool;
  check_mode : bool;
  results : list NormalizedResource
}.

(** The instance: the attributes [__init__] creates. *)
Record Self : Type := mk_self {
  self_results : ResultEnvelope;
  self_name : py_str;
  self_resource_group : py_str
}.

(** [self.network_client.network_security_groups]: the answers of the
    provider in its current state. *)
Record provider : Type := mk_provider {
  nsg_get : py_str -> py_str -> call_result py_item;
  nsg_list : py_str -> call_result (list Raw)
}.

(** ** The monad: instance and trace threaded, three outcomes *)

Record world : Type := mk_world {
  self : Self;
  trace : list event
}.

Definition M (A : Type) : Type := world -> outcome A * world.

Definition ret {A} (a : A) : M A := fun w => (Returned a, w).

Definition bind {A B} (m : M A) (k : A -> M B) : M B :=
  fun w =>
    match m w with
    | (Returned a, w') => k a w'
    | (Raised e, w') => (Raised e, w')
    | (Exited msg, w') => (Exited msg, w')
    end.

Definition raise {A} (e : py_exc) : M A := fun w => (Raised e, w).

Definition get_self : M Self := fun w => (Returned (self w), w).

Definition put_self (s : Self) : M unit :=
  fun w => (Returned tt, {| self := s; trace := trace w |}).

Definition emit (ev : event) : M unit :=
  fun w => (Returned tt, {| self := self w; trace := trace w ++ [ev] |}).

(** Lifting a collaborator's answer. *)
Definition of_call {A} (r : call_result A) : M A :=
  match r with
  | Ret a => ret a
  | Raise e => raise e
  end.

(** [try: body / except <class> as exc: handler exc], where [catches] is the
    [isinstance] test of the clause.  An exit is not an exception. *)
Definition try_except {A} (body : M A) (catches : py_exc -> bool)
           (handler : py_exc -> M A) : M A :=
  fun w =>
    match body w with
    | (Raised e, w') => if catches e then handler e w' else (Raised e, w')
    | r => r
    end.

Notation "x <- m ;; k" := (bind m (fun x => k))
  (at level 61, m at next level, right associativity).
Notation "m ;; k" := (bind m (fun _ => k))
  (at level 61, right associativity).

(** ** Methods inherited from the base class *)

(** [self.log(msg)]: recorded, no other effect. *)
Definition log (msg : string) : M unit := emit (EvLog msg).

(** Modelled from the spec: [fail] is a method of the base class
    [AzureRMModuleBase] (module [azure_rm_common], outside this file).  The
    spec calls it a terminal failure carrying a message: the invocation ends
    there and nothing after the call runs. *)
Definition fail {A} (msg : string) : M A := fun w => (Exited msg, w).

(** ** The class [AzureRMSecurityGroupFacts] *)

Variable network_client : provider.

(** [self.network_client.network_security_groups.get(rg, name)] *)
Definition call_get (rg name : py_str) : M py_item :=
  emit (EvGet rg name) ;; of_call (nsg_get network_client rg name).

(** [self.network_client.network_security_groups.list(rg)] *)
Definition call_list (rg : py_str) : M (list Raw) :=
  emit (EvList rg) ;; of_call (nsg_list network_client rg).

(** [__init__]: [check_mode] is what the base class initializer found. *)
Definition init (cm : bool) : Self :=
  {| self_results := {| changed := false; check_mode := cm; results := [] |};
     self_name := None;
     self_resource_group := None |}.

(** [setattr(self, key, value)] for the keys of [module_arg_spec]. *)
Definition setattr (s : Self) (key : string) (v : py_str) : Self :=
  if String.eqb key "name" then
    {| self_results := self_results s;
       self_name := v;
       self_resource_group := self_resource_group s |}
  else if String.eqb key "resource_group" then
    {| self_results := self_results s;
       self_name := self_name s;
       self_resource_group := v |}
  else s.

(** The dictionary [self.results] after [self.results['results'] = r]: the
    other two keys keep their values. *)
Definition store_results (env : ResultEnvelope)
           (r : list NormalizedResource) : ResultEnvelope :=
  {| changed := changed env; check_mode := check_mode env; results := r |}.

(** [self.results['results'] = r] *)
Definition set_results (r : list NormalizedResource) : M unit :=
  s <- get_self ;;
  put_self
    {| self_results := store_results (self_results s) r;
       self_name := self_name s;
       self_resource_group := self_resource_group s |}.

(** [for key in self.module_arg_spec: setattr(self, key, kwargs[key])] *)
Fixpoint set_attrs (keys : list (string * arg_spec)) (kwargs : Query)
  : M unit :=
  match keys with
  | [] => ret tt
  | (key, _) :: rest =>
      v <- of_call (kwargs_get kwargs key) ;;
      s <- get_self ;;
      put_self (setattr s key v) ;;
      set_attrs rest kwargs
  end.

(** [get_item] *)
Definition get_item : M (list NormalizedResource) :=
  s <- get_self ;;
  log (String.append "Get properties for " (format0 (self_name s))) ;;
  let item := PyNone in
  let result := [] in
  item <- try_except
            (s <- get_self ;;
             call_get (self_resource_group s) (self_name s))
            isinstance_CloudError
            (fun _ => ret item) ;;
  if truthy item then
    match item with
    | PyObj r => ret [serialize_obj r AZURE_OBJECT_CLASS]
    | PyNone => ret result
    end
  else ret result.

(** The loop of [list_items]:
    [for item in response: results.append(serialize_obj(item, ...))] *)
Fixpoint append_serialized (response : list Raw)
         (results : list NormalizedResource) : list NormalizedResource :=
  match response with
  | [] => results
  | item :: rest =>
      append_serialized rest (results ++ [serialize_obj item AZURE_OBJECT_CLASS])
  end.

(** [list_items] *)
Definition list_items : M (list NormalizedResource) :=
  log "List all items" ;;
  response <- try_except
                (s <- get_self ;;
                 call_list (self_resource_group s))
                isinstance_Exception
                (fun exc =>
                   fail (String.append "Error listing all items - " (exc_str exc))) ;;
  let results := [] in
  ret (append_serialized response results).

(** [exec_module_impl] *)
Definition exec_module_impl (kwargs : Query) : M ResultEnvelope :=
  set_attrs module_arg_spec kwargs ;;
  s <- get_self ;;
  match self_name s with
  | Some _ => r <- get_item ;; set_results r
  | None => r <- list_items ;; set_results r
  end ;;
  s <- get_self ;;
  ret (self_results s).

(** One invocation: a fresh instance, then [exec_module_impl]. *)
Definition run (cm : bool) (kwargs : Query) : outcome ResultEnvelope * world :=
  exec_module_impl kwargs {| self := init cm; trace := [] |}.

(** ** The keyword dictionary

    [exec_module_impl] receives [**kwargs]: the dictionary of all module
    parameters, which binds more keys than [module_arg_spec] declares.  The
    definitions below embed the method on the dictionary itself. *)

(** A dictionary with string keys; the first binding of a key is the one
    [dict_get] sees. *)
Definition kwargs_dict : Type := list (string * py_str).

(** [KeyError(key)]; [str] of it is the key between quotes. *)
Definition KeyError (key : string) : py_exc :=
  mk_exc OtherException None (String.append "'" (String.append key "'")).

(** [kwargs[key]] *)
Fixpoint dict_get (kwargs : kwargs_dict) (key : string)
  : call_result py_str :=
  match kwargs with
  | [] => Raise (KeyError key)
  | (k, v) :: rest => if String.eqb k key then Ret v else dict_get rest key
  end.

(** [for key in self.module_arg_spec: setattr(self, key, kwargs[key])] *)
Fixpoint set_attrs_kwargs (keys : list (string * arg_spec))
         (kwargs : kwargs_dict) : M unit :=
  match keys with
  | [] => ret tt
  | (key, _) :: rest =>
      v <- of_call (dict_get kwargs key) ;;
      s <- get_self ;;
      put_self (setattr s key v) ;;
      set_attrs_kwargs rest kwargs
  end.

(** [exec_module_impl(self, **kwargs)] *)
Definition exec_module_impl_kwargs (kwargs : kwargs_dict)
  : M ResultEnvelope :=
  set_attrs_kwargs module_arg_spec kwargs ;;
  s <- get_self ;;
  match self_name s with
  | Some _ => r <- get_item ;; set_results r
  | None => r <- list_items ;; set_results r
  end ;;
  s <- get_self ;;
  ret (self_results s).

(** The trace one invocation adds: the message logged, then the call. *)
Definition invocation_events (q : Query) : list event :=
  match q_name q with
  | Some n =>
      [EvLog (String.append "Get properties for " n);
       EvGet (Some (q_resource_group q)) (Some n)]
  | None =>
      [EvLog "List all items"; EvList (Some (q_resource_group q))]
  end.

(** ** Vocabulary of the properties *)

(** Serialization as every path of the module calls it. *)
Definition serialize (r : Raw) : NormalizedResource :=
  serialize_obj r AZURE_OBJECT_CLASS.

(** What [get_item] makes of a value [get] returned. *)
Definition item_result (item : py_item) : list NormalizedResource :=
  match item with
  | PyObj r => if obj_truthy r then [serialize r] else []
  | PyNone => []
  end.

(** The instance once the attributes are copied from the query. *)
Definition bound_self (s : Self) (q : Query) : Self :=
  {| self_results := self_results s;
     self_name := q_name q;
     self_resource_group := Some (q_resource_group q) |}.

(** [msg] contains [text]. *)
Definition contains (msg text : string) : Prop :=
  exists pre post, msg = String.append pre (String.append text post).

(** The trace [get_item] leaves. *)
Definition get_trace (w : world) : list event :=
  (trace w ++ [EvLog (String.append "Get properties for "
                                    (format0 (self_name (self w))))])
  ++ [EvGet (self_resource_group (self w)) (self_name (self w))].

(** The trace [list_items] leaves. *)
Definition list_trace (w : world) : list event :=
  (trace w ++ [EvLog "List all items"])
  ++ [EvList (self_resource_group (self w))].

(** The last two statements of [exec_module_impl], given how the fetch
    ended. *)
Definition finish (r : outcome (list NormalizedResource) * world)
  : outcome ResultEnvelope * world :=
  match r with
  | (Returned l, w) =>
      let env := store_results (self_results (self w)) l in
      (Returned env,
       {| self := {| self_results := env;
                     self_name := self_name (self w);
                     self_resource_group := self_resource_group (self w) |};
          trace := trace w |})
  | (Raised e, w) => (Raised e, w)
  | (Exited msg, w) => (Exited msg, w)
  end.

End Facts.

Arguments PyNone {Raw}.
Arguments init {Attrs} cm.

(** ** Sample providers and queries *)

Module Samples.

(** A raw resource is represented by its name; an empty name stands for an
    object whose truth value is false. *)
Definition sample_truthy (r : string) : bool := negb (String.eqb r EmptyString).

Definition sample_flatten (r : string) : string :=
  String.append "/resourceGroups/Testing/networkSecurityGroups/" r.

Definition not_found : py_exc :=
  mk_exc CloudError (Some 404%Z) "ResourceNotFound".

Definition forbidden : py_exc :=
  mk_exc CloudError (Some 403%Z) "AuthorizationFailed".

Definition connection_aborted : py_exc :=
  mk_exc OtherException None "Connection aborted".

(** Resource group Testing holds secgroup001 and secgroup002; the listing
    reports secgroup001 twice. *)
Definition testing_provider : provider string :=
  {| nsg_get := fun rg name =>
       match rg, name with
       | Some "Testing", Some "secgroup001" => Ret (PyObj "secgroup001")
       | Some "Testing", Some "secgroup002" => Ret (PyObj "secgroup002")
       | Some "Locked", _ => Raise forbidden
       | _, _ => Raise not_found
       end;
     nsg_list := fun rg =>
       match rg with
       | Some "Testing" => Ret ["secgroup002"; "secgroup001"; "secgroup001"]
       | _ => Raise not_found
       end |}.

(** A provider that cannot be reached. *)
Definition unreachable_provider : provider string :=
  {| nsg_get := fun _ _ => Raise connection_aborted;
     nsg_list := fun _ => Raise connection_aborted |}.

(** A provider whose [get] answers [None]. *)
Definition silent_provider : provider string :=
  {| nsg_get := fun _ _ => Ret PyNone;
     nsg_list := fun _ => Ret [] |}.

(** A provider that knows secgroup001 in Testing as [testing_provider]
    does, and answers every other call differently. *)
Definition other_provider : provider string :=
  {| nsg_get := fun rg name =>
       match rg, name with
       | Some "Testing", Some "secgroup001" => Ret (PyObj "secgroup001")
       | _, _ => Raise connection_aborted
       end;
     nsg_list := fun _ => Ret [] |}.

(** Control-C while the provider is being called. *)
Definition keyboard_interrupt : py_exc :=
  mk_exc NonException None "KeyboardInterrupt".

Definition interrupted_provider : provider string :=
  {| nsg_get := fun _ _ => Raise keyboard_interrupt;
     nsg_list := fun _ => Raise keyboard_interrupt |}.

(** Module parameters as the argument parser hands them over: the two
    declared keys among the common ones. *)
Definition params_one : kwargs_dict :=
  [ ("profile", None);
    ("name", Some "secgroup001");
    ("subscription_id", Some "3f7e29ba");
    ("resource_group", Some "Testing") ].

(** The same two bindings alone, in the other order. *)
Definition params_one_bare : kwargs_dict :=
  [ ("resource_group", Some "Testing"); ("name", Some "secgroup001") ].

(** Parameters without a resource group. *)
Definition params_no_group : kwargs_dict :=
  [ ("profile", None); ("name", Some "secgroup001") ].

(** A newly made instance, nothing traced yet. *)
Definition fresh_instance : world string :=
  {| self := init false; trace := [] |}.

(** One invocation against a sample provider. *)
Definition run_sample (P : provider string) (cm : bool) (q : Query)
  : outcome (ResultEnvelope string) * world string :=
  run sample_truthy sample_flatten P cm q.

Definition query_one : Query := mk_query (Some "secgroup001") "Testing".
Definition query_missing : Query := mk_query (Some "secgroup009") "Testing".
Definition query_all : Query := mk_query None "Testing".

End Samples.

(** ** Properties *)

Section Properties.

Variable Raw : Type.
Variable Attrs : Type.
Variable obj_truthy : Raw -> bool.
Variable flatten : Raw -> Attrs.

Ltac step := unfold bind, get_self, put_self, emit, log, ret, raise; simpl.

Lemma set_attrs_module_arg_spec (q : Query) (w : world Attrs) :
  set_attrs module_arg_spec q w =
  (Returned tt, {| self := bound_self (self w) q; trace := trace w |}).
Proof. reflexivity. Qed.

Lemma append_serialized_app (l : list Raw) :
  forall acc, append_serialized flatten l acc = acc ++ map (serialize flatten) l.
Proof.
  induction l as [| r l IH]; intros acc; simpl.
  - now rewrite app_nil_r.
  - rewrite IH, <- app_assoc. reflexivity.
Qed.

Lemma append_serialized_map (l : list Raw) :
  append_serialized flatten l [] = map (serialize flatten) l.
Proof. now rewrite append_serialized_app. Qed.

Lemma get_item_eq (P : provider Raw) (w : world Attrs) :
  get_item obj_truthy flatten P w =
  let w' := {| self := self w; trace := get_trace w |} in
  match nsg_get P (self_resource_group (self w)) (self_name (self w)) with
  | Ret item => (Returned (item_result obj_truthy flatten item), w')
  | Raise e =>
      if isinstance_CloudError e then (Returned [], w') else (Raised e, w')
  end.
Proof.
  unfold get_item, try_except, call_get, get_trace. step.
  destruct (nsg_get P _ _) as [item | e]; simpl.
  - destruct item as [| r]; simpl; [reflexivity |].
    unfold serialize. destruct (obj_truthy r); reflexivity.
  - destruct (isinstance_CloudError e); reflexivity.
Qed.

Lemma list_items_eq (P : provider Raw) (w : world Attrs) :
  list_items flatten P w =
  let w' := {| self := self w; trace := list_trace w |} in
  match nsg_list P (self_resource_group (self w)) with
  | Ret response => (Returned (map (serialize flatten) response), w')
  | Raise e =>
      if isinstance_Exception e
      then (Exited (String.append "Error listing all items - " (exc_str e)), w')
      else (Raised e, w')
  end.
Proof.
  unfold list_items, try_except, call_list, list_trace, fail. step.
  destruct (nsg_list P _) as [response | e]; simpl.
  - now rewrite append_serialized_map.
  - destruct (isinstance_Exception e); reflexivity.
Qed.

Lemma exec_module_impl_eq (P : provider Raw) (q : Query) (w : world Attrs) :
  exec_module_impl obj_truthy flatten P q w =
  let w1 := {| self := bound_self (self w) q; trace := trace w |} in
  match q_name q with
  | Some _ => finish (get_item obj_truthy flatten P w1)
  | None => finish (list_items flatten P w1)
  end.
Proof.
  unfold exec_module_impl.
  unfold bind at 1. rewrite set_attrs_module_arg_spec.
  unfold bind at 1. unfold get_self at 1. cbn [self bound_self self_name].
  destruct (q_name q) as [n |].
  - unfold bind at 1. unfold bind at 1.
    destruct (get_item obj_truthy flatten P _) as [[l | e | msg] w2];
      reflexivity.
  - unfold bind at 1. unfold bind at 1.
    destruct (list_items flatten P _) as [[l | e | msg] w2]; reflexivity.
Qed.

Lemma finish_trace
      (r : outcome (list (NormalizedResource Attrs)) * world Attrs) :
  trace (snd (finish r)) = trace (snd r).
Proof. destruct r as [[l | e | msg] w]; reflexivity. Qed.

Lemma finish_changed
      (r : outcome (list (NormalizedResource Attrs)) * world Attrs) :
  changed (self_results (self (snd (finish r)))) =
  changed (self_results (self (snd r))).
Proof. destruct r as [[l | e | msg] w]; reflexivity. Qed.

(** A single lookup, whatever the instance held before. *)
Lemma exec_single (P : provider Raw) (q : Query) (n : string)
      (w : world Attrs) :
  q_name q = Some n ->
  fst (exec_module_impl obj_truthy flatten P q w) =
  match nsg_get P (Some (q_resource_group q)) (Some n) with
  | Ret item =>
      Returned (store_results (self_results (self w))
                              (item_result obj_truthy flatten item))
  | Raise e =>
      if isinstance_CloudError e
      then Returned (store_results (self_results (self w)) [])
      else Raised e
  end.
Proof.
  intros Hn. rewrite exec_module_impl_eq. cbn zeta. rewrite Hn.
  rewrite get_item_eq. cbn [self bound_self self_name self_resource_group].
  rewrite Hn. cbn zeta.
  destruct (nsg_get P _ _) as [item | e]; [reflexivity |].
  destruct (isinstance_CloudError e); reflexivity.
Qed.

(** A listing, whatever the instance held before. *)
Lemma exec_listing (P : provider Raw) (q : Query) (w : world Attrs) :
  q_name q = None ->
  fst (exec_module_impl obj_truthy flatten P q w) =
  match nsg_list P (Some (q_resource_group q)) with
  | Ret response =>
      Returned (store_results (self_results (self w))
                              (map (serialize flatten) response))
  | Raise e =>
      if isinstance_Exception e
      then Exited (String.append "Error listing all items - " (exc_str e))
      else Raised e
  end.
Proof.
  intros Hn. rewrite exec_module_impl_eq. cbn zeta. rewrite Hn.
  rewrite list_items_eq. cbn [self bound_self self_resource_group]. cbn zeta.
  destruct (nsg_list P _) as [response | e]; [reflexivity |].
  destruct (isinstance_Exception e); reflexivity.
Qed.

Lemma store_results_init (cm : bool) (l : list (NormalizedResource Attrs)) :
  store_results (self_results (init cm)) l =
  {| changed := false; check_mode := cm; results := l |}.
Proof. reflexivity. Qed.

(** [exec_module_impl] leaves the [changed] key as it found it. *)
Lemma exec_module_impl_changed (P : provider Raw) (q : Query)
      (w : world Attrs) :
  changed (self_results
             (self (snd (exec_module_impl obj_truthy flatten P q w)))) =
  changed (self_results (self w)).
Proof.
  rewrite exec_module_impl_eq. cbn zeta.
  destruct (q_name q); rewrite finish_changed.
  - rewrite get_item_eq. cbn zeta.
    destruct (nsg_get P _ _) as [item | e]; [reflexivity |].
    destruct (isinstance_CloudError e); reflexivity.
  - rewrite list_items_eq. cbn zeta.
    destruct (nsg_list P _) as [response | e]; [reflexivity |].
    destruct (isinstance_Exception e); reflexivity.
Qed.

(** The envelope [exec_module_impl] returns is the dictionary the instance
    holds, and its [changed] key is the one the instance started with. *)
Lemma exec_module_impl_returned (P : provider Raw) (q : Query)
      (w : world Attrs) (env : ResultEnvelope Attrs) :
  fst (exec_module_impl obj_truthy flatten P q w) = Returned env ->
  changed env = changed (self_results (self w)) /\
  check_mode env = check_mode (self_results (self w)).
Proof.
  destruct (q_name q) as [n |] eqn:Hn.
  - rewrite (exec_single P q w Hn).
    destruct (nsg_get P _ _) as [item | e].
    + intros [= <-]. split; reflexivity.
    + destruct (isinstance_CloudError e); [| discriminate].
      intros [= <-]. split; reflexivity.
  - rewrite (exec_listing P q w Hn).
    destruct (nsg_list P _) as [response | e].
    + intros [= <-]. split; reflexivity.
    + destruct (isinstance_Exception e); discriminate.
Qed.

(** *** Choice of the lookup mode *)

(** C1: an invocation makes exactly one call to the provider.  When the
    query carries a name (any string, the empty one and a star included) the
    call is [get] with the resource group and that very name; when the name
    is [None] the call is [list] with the resource group.  The name is never
    rewritten, matched or expanded on the way. *)
Theorem lookup_mode_follows_name (P : provider Raw) (cm : bool) (q : Query) :
  provider_calls (trace (snd (run obj_truthy flatten P cm q))) =
  match q_name q with
  | Some n => [EvGet (Some (q_resource_group q)) (Some n)]
  | None => [EvList (Some (q_resource_group q))]
  end.
Proof.
  unfold run. rewrite exec_module_impl_eq. cbn zeta.
  destruct (q_name q) as [n |] eqn:Hn; rewrite finish_trace.
  - rewrite get_item_eq. cbn zeta.
    assert (Ht : provider_calls
                   (get_trace {| self := bound_self (@init Attrs cm) q;
                                 trace := [] |}) =
                 [EvGet (Some (q_resource_group q)) (Some n)]).
    { unfold get_trace. cbn. rewrite Hn. reflexivity. }
    destruct (nsg_get P _ _) as [item | e]; [exact Ht |].
    destruct (isinstance_CloudError e); exact Ht.
  - rewrite list_items_eq. cbn zeta.
    destruct (nsg_list P _) as [response | e]; [reflexivity |].
    destruct (isinstance_Exception e); reflexivity.
Qed.

(** *** The listing path *)

(** C2: when the query has no name and the provider's [list] raises an
    exception [e] (an instance of [Exception]), the invocation ends in
    [fail] with the message "Error listing all items - " followed by
    [str(e)], so the message contains the provider's text; no envelope is
    returned and the results list of the instance is still empty. *)
Theorem listing_failure_is_fatal
        (P : provider Raw) (cm : bool) (q : Query) (e : py_exc) :
  q_name q = None ->
  nsg_list P (Some (q_resource_group q)) = Raise e ->
  isinstance_Exception e = true ->
  fst (run obj_truthy flatten P cm q) =
    Exited (String.append "Error listing all items - " (exc_str e)) /\
  (exists msg, fst (run obj_truthy flatten P cm q) = Exited msg /\
               contains msg (exc_str e)) /\
  results (self_results (self (snd (run obj_truthy flatten P cm q)))) = [].
Proof.
  intros Hn Hl He.
  assert (Hrun : run obj_truthy flatten P cm q =
                 (Exited (String.append "Error listing all items - "
                                        (exc_str e)),
                  {| self := bound_self (@init Attrs cm) q;
                     trace := [EvLog "List all items";
                               EvList (Some (q_resource_group q))] |})).
  { unfold run. rewrite exec_module_impl_eq. cbn zeta. rewrite Hn.
    rewrite list_items_eq. cbn zeta.
    cbn [self bound_self self_resource_group]. rewrite Hl, He.
    reflexivity. }
  rewrite Hrun. cbn [fst snd]. repeat split.
  exists (String.append "Error listing all items - " (exc_str e)).
  split; [reflexivity |].
  exists "Error listing all items - ", EmptyString.
  assert (Hnil : forall t : string, String.append t EmptyString = t).
  { induction t as [| c t IH]; simpl; [reflexivity | now rewrite IH]. }
  now rewrite Hnil.
Qed.

(** C5: when the query has no name and the provider's [list] returns the
    raw resources [raws], the invocation returns an envelope whose results
    are as many as [raws], the one at each position being the serialization
    of the raw resource at that position. *)
Theorem listing_returns_every_resource
        (P : provider Raw) (cm : bool) (q : Query) (raws : list Raw) :
  q_name q = None ->
  nsg_list P (Some (q_resource_group q)) = Ret raws ->
  exists env,
    fst (run obj_truthy flatten P cm q) = Returned env /\
    length (results env) = length raws /\
    forall i, nth_error (results env) i =
              option_map (fun r => serialize_obj flatten r AZURE_OBJECT_CLASS)
                         (nth_error raws i).
Proof.
  intros Hn Hl. unfold run. rewrite (exec_listing P q _ Hn), Hl.
  eexists. split; [reflexivity |]. cbn [results store_results]. split.
  - apply length_map.
  - intros i. apply nth_error_map.
Qed.

(** C10: when the query has no name and the provider's [list] returns
    [raws], the results are the serializations of [raws] in the order [list]
    gave them: nothing is reordered, dropped or merged. *)
Theorem listing_preserves_order
        (P : provider Raw) (cm : bool) (q : Query) (raws : list Raw) :
  q_name q = None ->
  nsg_list P (Some (q_resource_group q)) = Ret raws ->
  fst (run obj_truthy flatten P cm q) =
  Returned {| changed := false;
              check_mode := cm;
              results := map (fun r =>
                                serialize_obj flatten r AZURE_OBJECT_CLASS)
                             raws |}.
Proof.
  intros Hn Hl. unfold run. rewrite (exec_listing P q _ Hn), Hl.
  reflexivity.
Qed.

(** *** The single-item path *)

(** C3: when the query names a resource that does not exist, that is the
    provider's [get] raises its not-found error (a [CloudError] with status
    404), [get_item] returns the empty list and the invocation returns an
    envelope with no results: the absence is not an error. *)
Theorem missing_name_gives_empty_results
        (P : provider Raw) (cm : bool) (q : Query) (n : string) (e : py_exc) :
  q_name q = Some n ->
  nsg_get P (Some (q_resource_group q)) (Some n) = Raise e ->
  is_not_found e = true ->
  fst (get_item obj_truthy flatten P
                {| self := bound_self (@init Attrs cm) q; trace := [] |}) =
    Returned [] /\
  fst (run obj_truthy flatten P cm q) =
    Returned {| changed := false; check_mode := cm; results := [] |}.
Proof.
  intros Hn Hg He. apply andb_prop in He as [Hc _]. split.
  - rewrite get_item_eq. cbn [self bound_self self_name self_resource_group].
    rewrite Hn, Hg, Hc. reflexivity.
  - unfold run. rewrite (exec_single P q _ Hn), Hg, Hc. reflexivity.
Qed.

(** C4, as amended: when the provider's [get] raises [e] during a single
    lookup, the outcome depends on the class of [e] alone.  A [CloudError],
    whatever its status (not found or anything else), is suppressed and the
    invocation returns an envelope with no results; an exception of any
    other class is not caught and ends the invocation. *)
Theorem cloud_errors_are_swallowed
        (P : provider Raw) (cm : bool) (q : Query) (n : string) (e : py_exc) :
  q_name q = Some n ->
  nsg_get P (Some (q_resource_group q)) (Some n) = Raise e ->
  fst (run obj_truthy flatten P cm q) =
  if isinstance_CloudError e
  then Returned {| changed := false; check_mode := cm; results := [] |}
  else Raised e.
Proof.
  intros Hn Hg. unfold run. rewrite (exec_single P q _ Hn), Hg.
  destruct (isinstance_CloudError e); reflexivity.
Qed.

(** C6: [get_item] returns at most one resource; and when the query names a
    resource that exists, that is the provider's [get] returns a (truthy)
    object [r], the invocation returns exactly one resource, the
    serialization of [r], whose object class is 'NetworkSecurityGroup'. *)
Theorem existing_name_gives_one_resource
        (P : provider Raw) (cm : bool) (q : Query) :
  (forall w : world Attrs,
      match fst (get_item obj_truthy flatten P w) with
      | Returned l => length l <= 1
      | _ => True
      end) /\
  (forall (n : string) (r : Raw),
      q_name q = Some n ->
      nsg_get P (Some (q_resource_group q)) (Some n) = Ret (PyObj r) ->
      obj_truthy r = true ->
      exists nr,
        fst (run obj_truthy flatten P cm q) =
          Returned {| changed := false; check_mode := cm; results := [nr] |} /\
        nr = serialize_obj flatten r AZURE_OBJECT_CLASS /\
        object_class nr = "NetworkSecurityGroup").
Proof.
  split.
  - intros w. rewrite get_item_eq. cbn zeta.
    destruct (nsg_get P _ _) as [item | e]; cbn [fst].
    + destruct item as [| r]; cbn [item_result length]; [lia |].
      destruct (obj_truthy r); cbn [length]; lia.
    + destruct (isinstance_CloudError e); cbn [fst length]; [lia | exact I].
  - intros n r Hn Hg Ht. exists (serialize_obj flatten r AZURE_OBJECT_CLASS).
    repeat split. unfold run. rewrite (exec_single P q _ Hn), Hg.
    cbn [item_result]. rewrite Ht. reflexivity.
Qed.

(** C9: when the provider's [get] returns without raising but the value is
    falsy ([None], or an object whose truth value is false), [get_item]
    does not serialize it: it returns the empty list, and so does the
    invocation. *)
Theorem falsy_item_is_not_serialized
        (P : provider Raw) (cm : bool) (q : Query) (n : string)
        (item : py_item Raw) :
  q_name q = Some n ->
  nsg_get P (Some (q_resource_group q)) (Some n) = Ret item ->
  truthy obj_truthy item = false ->
  fst (get_item obj_truthy flatten P
                {| self := bound_self (@init Attrs cm) q; trace := [] |}) =
    Returned [] /\
  fst (run obj_truthy flatten P cm q) =
    Returned {| changed := false; check_mode := cm; results := [] |}.
Proof.
  intros Hn Hg Ht.
  assert (Hr : item_result obj_truthy flatten item = []).
  { destruct item as [| r]; [reflexivity |].
    cbn in Ht |- *. now rewrite Ht. }
  split.
  - rewrite get_item_eq. cbn [self bound_self self_name self_resource_group].
    rewrite Hn, Hg. cbn zeta. cbn [fst]. now rewrite Hr.
  - unfold run. rewrite (exec_single P q _ Hn), Hg, Hr. reflexivity.
Qed.

(** *** The envelope *)

(** C7: after an invocation the [changed] key of the instance's results is
    false, however the invocation ended; in particular every envelope an
    invocation returns has [changed] false. *)
Theorem changed_is_always_false (P : provider Raw) (cm : bool) (q : Query) :
  changed (self_results (self (snd (run obj_truthy flatten P cm q)))) = false /\
  (forall env, fst (run obj_truthy flatten P cm q) = Returned env ->
               changed env = false).
Proof.
  unfold run. split.
  - now rewrite exec_module_impl_changed.
  - intros env Hr. now destruct (exec_module_impl_returned P q _ Hr) as [-> _].
Qed.

(** C8: the outcome of an invocation is a function of the query and of the
    provider's answer to the one call the query leads to.  Two invocations
    with the same query, against providers that answer that call alike,
    end alike: same outcome, same envelope, same instance, same trace.  And
    nothing an earlier invocation left in the instance (name, resource
    group, results, trace) shows in the outcome of a later one. *)
Theorem same_query_same_envelope
        (P1 P2 : provider Raw) (cm : bool) (q : Query) :
  match q_name q with
  | Some n => nsg_get P1 (Some (q_resource_group q)) (Some n) =
              nsg_get P2 (Some (q_resource_group q)) (Some n)
  | None => nsg_list P1 (Some (q_resource_group q)) =
            nsg_list P2 (Some (q_resource_group q))
  end ->
  run obj_truthy flatten P1 cm q = run obj_truthy flatten P2 cm q /\
  (forall w : world Attrs,
      changed (self_results (self w)) = false ->
      check_mode (self_results (self w)) = cm ->
      fst (exec_module_impl obj_truthy flatten P1 q w) =
      fst (run obj_truthy flatten P1 cm q)).
Proof.
  intros Hsame. split.
  - unfold run. rewrite !exec_module_impl_eq. cbn zeta.
    destruct (q_name q) as [n |] eqn:Hn.
    + rewrite !get_item_eq.
      cbn [self bound_self self_name self_resource_group].
      rewrite Hn, Hsame. reflexivity.
    + rewrite !list_items_eq. cbn [self bound_self self_resource_group].
      rewrite Hsame. reflexivity.
  - intros w Hc Hm. unfold run.
    assert (Hst : forall l,
               store_results (self_results (self w)) l =
               store_results (self_results (@init Attrs cm)) l).
    { intros l. unfold store_results. rewrite Hc, Hm. reflexivity. }
    destruct (q_name q) as [n |] eqn:Hn.
    + rewrite !(exec_single P1 q _ Hn). cbn [self].
      destruct (nsg_get P1 _ _) as [item | e]; rewrite ?Hst; reflexivity.
    + rewrite !(exec_listing P1 q _ Hn). cbn [self].
      destruct (nsg_list P1 _) as [response | e]; rewrite ?Hst; reflexivity.
Qed.

(** *** What the fetch methods leave alone *)

(** X1: neither [get_item] nor [list_items] assigns to the instance:
    however the provider answers and however the call ends, the instance
    is afterwards what it was before. *)
Theorem fetch_leaves_instance_untouched
        (P : provider Raw) (w : world Attrs) :
  self (snd (get_item obj_truthy flatten P w)) = self w /\
  self (snd (list_items flatten P w)) = self w.
Proof.
  split.
  - rewrite get_item_eq. cbn zeta.
    destruct (nsg_get P _ _) as [item | e]; [reflexivity |].
    destruct (isinstance_CloudError e); reflexivity.
  - rewrite list_items_eq. cbn zeta.
    destruct (nsg_list P _) as [response | e]; [reflexivity |].
    destruct (isinstance_Exception e); reflexivity.
Qed.

(** X2: an invocation adds exactly two events to the trace, whatever the
    provider answers: the log message of the chosen mode ('Get properties
    for' and the name, or 'List all items'), then the provider call.
    Earlier events are kept, and nothing is logged after the call, not even
    on failure. *)
Theorem invocation_logs_then_calls
        (P : provider Raw) (q : Query) (w : world Attrs) :
  trace (snd (exec_module_impl obj_truthy flatten P q w)) =
  trace w ++ invocation_events q.
Proof.
  rewrite exec_module_impl_eq. cbn zeta. unfold invocation_events.
  destruct (q_name q) as [n |] eqn:Hn; rewrite finish_trace.
  - rewrite get_item_eq. cbn zeta.
    assert (Ht : get_trace {| self := bound_self (self w) q;
                              trace := trace w |} =
                 trace w ++
                 [EvLog (String.append "Get properties for " n);
                  EvGet (Some (q_resource_group q)) (Some n)]).
    { unfold get_trace. cbn [self trace bound_self self_name
                             self_resource_group].
      rewrite Hn, <- app_assoc. reflexivity. }
    destruct (nsg_get P _ _) as [item | e]; [exact Ht |].
    destruct (isinstance_CloudError e); exact Ht.
  - rewrite list_items_eq. cbn zeta.
    assert (Ht : list_trace {| self := bound_self (self w) q;
                               trace := trace w |} =
                 trace w ++
                 [EvLog "List all items";
                  EvList (Some (q_resource_group q))]).
    { unfold list_trace. cbn [self trace bound_self self_resource_group].
      rewrite <- app_assoc. reflexivity. }
    destruct (nsg_list P _) as [response | e]; [exact Ht |].
    destruct (isinstance_Exception e); exact Ht.
Qed.

(** *** How an invocation can end *)

(** X3: [except Exception] in [list_items] does not catch an exception
    that is not an instance of [Exception] (an interrupt): it leaves the
    invocation as it was raised, [fail] is not called and no results are
    stored. *)
Theorem listing_interrupt_propagates
        (P : provider Raw) (cm : bool) (q : Query) (e : py_exc) :
  q_name q = None ->
  nsg_list P (Some (q_resource_group q)) = Raise e ->
  isinstance_Exception e = false ->
  fst (run obj_truthy flatten P cm q) = Raised e /\
  results (self_results (self (snd (run obj_truthy flatten P cm q)))) = [].
Proof.
  intros Hn Hl He. unfold run. rewrite exec_module_impl_eq. cbn zeta.
  rewrite Hn, list_items_eq. cbn [self bound_self self_resource_group].
  rewrite Hl, He. split; reflexivity.
Qed.

(** X4: the instance after [exec_module_impl].  Its [name] and
    [resource_group] are those of the query, however the call ended.  When
    the call returns, the envelope returned is the results dictionary the
    instance holds; when it does not (an exception or [fail]), the results
    dictionary is the one the instance held before the call, stale results
    included. *)
Theorem instance_after_invocation
        (P : provider Raw) (q : Query) (w : world Attrs) :
  let r := exec_module_impl obj_truthy flatten P q w in
  self_name (self (snd r)) = q_name q /\
  self_resource_group (self (snd r)) = Some (q_resource_group q) /\
  match fst r with
  | Returned env => self_results (self (snd r)) = env
  | _ => self_results (self (snd r)) = self_results (self w)
  end.
Proof.
  cbn zeta. rewrite exec_module_impl_eq. cbn zeta.
  destruct (q_name q) as [n |] eqn:Hn.
  - rewrite get_item_eq. cbn zeta.
    destruct (nsg_get P _ _) as [item | e];
      [| destruct (isinstance_CloudError e)];
      cbn; rewrite ?Hn; repeat split.
  - rewrite list_items_eq. cbn zeta.
    destruct (nsg_list P _) as [response | e];
      [| destruct (isinstance_Exception e)];
      cbn; rewrite ?Hn; repeat split.
Qed.


(** X6: [fail] is reached from the listing path only.  When an invocation
    ends in [fail], the query had no name, [list] raised an instance of
    [Exception], and the message is 'Error listing all items - ' followed
    by the text of that exception. *)
Theorem exit_only_from_listing
        (P : provider Raw) (cm : bool) (q : Query) (msg : string) :
  fst (run obj_truthy flatten P cm q) = Exited msg ->
  q_name q = None /\
  exists e,
    nsg_list P (Some (q_resource_group q)) = Raise e /\
    isinstance_Exception e = true /\
    msg = String.append "Error listing all items - " (exc_str e).
Proof.
  unfold run. destruct (q_name q) as [n |] eqn:Hn.
  - rewrite (exec_single P q _ Hn).
    destruct (nsg_get P _ _) as [item | e]; [discriminate |].
    destruct (isinstance_CloudError e); discriminate.
  - rewrite (exec_listing P q _ Hn).
    destruct (nsg_list P _) as [response | e]; [discriminate |].
    destruct (isinstance_Exception e) eqn:He; [| discriminate].
    intros [= <-]. split; [reflexivity |].
    exists e. repeat split. exact He.
Qed.


(** X8: nothing is made up.  Every resource in a returned envelope is the
    serialization, under [AZURE_OBJECT_CLASS], of a raw resource the
    provider returned in this invocation: the object [get] returned, or a
    member of the sequence [list] returned. *)
Theorem results_come_from_provider
        (P : provider Raw) (cm : bool) (q : Query)
        (env : ResultEnvelope Attrs) :
  fst (run obj_truthy flatten P cm q) = Returned env ->
  forall nr, In nr (results env) ->
  exists r,
    nr = serialize_obj flatten r AZURE_OBJECT_CLASS /\
    match q_name q with
    | Some n =>
        nsg_get P (Some (q_resource_group q)) (Some n) = Ret (PyObj r)
    | None =>
        exists raws,
          nsg_list P (Some (q_resource_group q)) = Ret raws /\ In r raws
    end.
Proof.
  unfold run. destruct (q_name q) as [n |] eqn:Hn.
  - rewrite (exec_single P q _ Hn).
    destruct (nsg_get P _ _) as [item | e].
    + intros [= <-] nr Hin. cbn [results store_results] in Hin.
      destruct item as [| r]; [destruct Hin |].
      cbn [item_result] in Hin.
      destruct (obj_truthy r); [| destruct Hin].
      destruct Hin as [<- | []]. exists r. split; reflexivity.
    + destruct (isinstance_CloudError e); [| discriminate].
      intros [= <-] nr [].
  - rewrite (exec_listing P q _ Hn).
    destruct (nsg_list P _) as [response | e].
    + intros [= <-] nr Hin. cbn [results store_results] in Hin.
      apply in_map_iff in Hin as [r [<- Hr]].
      exists r. split; [reflexivity |]. exists response. split; trivial.
    + destruct (isinstance_Exception e); discriminate.
Qed.

(** *** The keyword dictionary *)

Lemma set_attrs_kwargs_eq (d : kwargs_dict) (w : world Attrs) :
  set_attrs_kwargs module_arg_spec d w =
  match dict_get d "name" with
  | Raise e => (Raised e, w)
  | Ret n =>
      let s1 := {| self_results := self_results (self w);
                   self_name := n;
                   self_resource_group := self_resource_group (self w) |} in
      match dict_get d "resource_group" with
      | Raise e => (Raised e, {| self := s1; trace := trace w |})
      | Ret g =>
          (Returned tt,
           {| self := {| self_results := self_results (self w);
                         self_name := n;
                         self_resource_group := g |};
              trace := trace w |})
      end
  end.
Proof.
  unfold set_attrs_kwargs, module_arg_spec, bind, of_call.
  destruct (dict_get d "name") as [n | e]; [| reflexivity].
  cbn. destruct (dict_get d "resource_group") as [g | e]; reflexivity.
Qed.

Lemma dict_get_absent (d : kwargs_dict) (key : string) :
  ~ In key (map fst d) -> dict_get d key = Raise (KeyError key).
Proof.
  induction d as [| [k v] d IH]; intros Hnot; simpl; [reflexivity |].
  destruct (String.eqb k key) eqn:Hk.
  - apply String.eqb_eq in Hk. exfalso. apply Hnot. left. exact Hk.
  - apply IH. intros Hin. apply Hnot. right. exact Hin.
Qed.

Lemma dict_get_spec (d : kwargs_dict) (key : string) :
  match dict_get d key with
  | Ret _ => In key (map fst d)
  | Raise e => e = KeyError key /\ ~ In key (map fst d)
  end.
Proof.
  induction d as [| [k v] d IH]; simpl.
  - split; [reflexivity | intros []].
  - destruct (String.eqb k key) eqn:Hk.
    + apply String.eqb_eq in Hk. left. exact Hk.
    + apply String.eqb_neq in Hk.
      destruct (dict_get d key) as [v' | e].
      * right. exact IH.
      * destruct IH as [He Hnot]. split; [exact He |].
        intros [Heq | Hin]; [exact (Hk Heq) | exact (Hnot Hin)].
Qed.

(** X9: on a dictionary that binds both declared keys, the method does
    what it does on the query those two bindings make; the other keys of
    the dictionary, and the order of the bindings, play no part. *)
Theorem kwargs_reduce_to_query
        (P : provider Raw) (d : kwargs_dict) (n : py_str) (g : string)
        (w : world Attrs) :
  dict_get d "name" = Ret n ->
  dict_get d "resource_group" = Ret (Some g) ->
  exec_module_impl_kwargs obj_truthy flatten P d w =
  exec_module_impl obj_truthy flatten P (mk_query n g) w.
Proof.
  intros Hn Hg. unfold exec_module_impl_kwargs, exec_module_impl.
  unfold bind at 1. rewrite set_attrs_kwargs_eq, Hn, Hg. cbn zeta.
  symmetry. unfold bind at 1. rewrite set_attrs_module_arg_spec.
  reflexivity.
Qed.

(** X10: a dictionary that lacks a declared key stops the method at
    [kwargs[key]]: a [KeyError] for a declared key that is missing leaves
    the call, before anything is logged, before the provider is called,
    and with the results dictionary of the instance as it was. *)
Theorem missing_key_is_a_key_error
        (P : provider Raw) (d : kwargs_dict) (w : world Attrs) :
  ~ In "name" (map fst d) \/ ~ In "resource_group" (map fst d) ->
  let r := exec_module_impl_kwargs obj_truthy flatten P d w in
  (exists key, In key (map fst module_arg_spec) /\
               ~ In key (map fst d) /\
               fst r = Raised (KeyError key)) /\
  trace (snd r) = trace w /\
  self_results (self (snd r)) = self_results (self w).
Proof.
  intros Hmiss r. assert (Hr : r = exec_module_impl_kwargs
                                    obj_truthy flatten P d w) by reflexivity.
  clearbody r. unfold exec_module_impl_kwargs in Hr.
  unfold bind at 1 in Hr. rewrite set_attrs_kwargs_eq in Hr.
  pose proof (dict_get_spec d "name") as Hname.
  destruct (dict_get d "name") as [n | e].
  - destruct Hmiss as [Hn | Hg]; [contradiction |].
    rewrite (dict_get_absent d "resource_group" Hg) in Hr.
    cbn in Hr. subst r. cbn.
    split; [| split; reflexivity].
    exists "resource_group".
    split; [right; left; reflexivity | split; [exact Hg | reflexivity]].
  - destruct Hname as [-> Hnot]. subst r. cbn.
    split; [| split; reflexivity].
    exists "name".
    split; [left; reflexivity | split; [exact Hnot | reflexivity]].
Qed.

End Properties.

(** ** The properties on the sample providers *)

Import Samples.

(** A star or an empty string is a name like any other: it goes to [get]
    as it is. *)
Example star_is_looked_up_verbatim :
  provider_calls
    (trace (snd (run_sample testing_provider false
                            (mk_query (Some "*") "Testing")))) =
    [EvGet (Some "Testing") (Some "*")] /\
  provider_calls
    (trace (snd (run_sample testing_provider false
                            (mk_query (Some EmptyString) "Testing")))) =
    [EvGet (Some "Testing") (Some EmptyString)].
Proof. split; reflexivity. Qed.

(** C4, as the claim states it, fails: a provider that cannot be reached
    raises an exception that is not a [CloudError]; [get_item] does not
    catch it and the invocation ends with that exception instead of
    returning empty results. *)
Lemma single_lookup_error_can_abort :
  nsg_get unreachable_provider (Some "Testing") (Some "secgroup001") =
    Raise connection_aborted /\
  fst (run sample_truthy sample_flatten unreachable_provider false query_one) =
    Raised connection_aborted /\
  fst (run sample_truthy sample_flatten unreachable_provider false query_one) <>
    Returned {| changed := false; check_mode := false; results := [] |}.
Proof. repeat split. discriminate. Qed.

Lemma listing_failure_is_fatal_witness :
  fst (run_sample unreachable_provider false query_all) =
    Exited "Error listing all items - Connection aborted" /\
  (exists msg, fst (run_sample unreachable_provider false query_all) =
                 Exited msg /\
               contains msg "Connection aborted") /\
  results (self_results
             (self (snd (run_sample unreachable_provider false query_all)))) =
    [].
Proof.
  exact (listing_failure_is_fatal sample_truthy sample_flatten
           unreachable_provider false query_all (e := connection_aborted)
           eq_refl eq_refl eq_refl).
Defined.

Lemma listing_returns_every_resource_witness :
  exists env,
    fst (run_sample testing_provider true query_all) = Returned env /\
    length (results env) = 3 /\
    forall i, nth_error (results env) i =
              option_map (fun r => serialize_obj sample_flatten r
                                                 "NetworkSecurityGroup")
                         (nth_error ["secgroup002"; "secgroup001";
                                     "secgroup001"] i).
Proof.
  exact (listing_returns_every_resource sample_truthy sample_flatten
           testing_provider true query_all eq_refl eq_refl).
Defined.

Lemma listing_preserves_order_witness :
  fst (run_sample testing_provider true query_all) =
  Returned {| changed := false;
              check_mode := true;
              results := [serialize_obj sample_flatten "secgroup002"
                                        "NetworkSecurityGroup";
                          serialize_obj sample_flatten "secgroup001"
                                        "NetworkSecurityGroup";
                          serialize_obj sample_flatten "secgroup001"
                                        "NetworkSecurityGroup"] |}.
Proof.
  exact (listing_preserves_order sample_truthy sample_flatten
           testing_provider true query_all eq_refl eq_refl).
Defined.

Lemma missing_name_gives_empty_results_witness :
  is_not_found not_found = true /\
  fst (run_sample testing_provider false query_missing) =
    Returned {| changed := false; check_mode := false; results := [] |}.
Proof.
  split; [reflexivity |].
  exact (proj2 (missing_name_gives_empty_results sample_truthy sample_flatten
                  testing_provider false query_missing (e := not_found)
                  eq_refl eq_refl eq_refl)).
Defined.

Lemma cloud_errors_are_swallowed_witness :
  is_not_found forbidden = false /\
  fst (run_sample testing_provider false
                  (mk_query (Some "secgroup001") "Locked")) =
    Returned {| changed := false; check_mode := false; results := [] |}.
Proof.
  split; [reflexivity |].
  exact (cloud_errors_are_swallowed sample_truthy sample_flatten
           testing_provider false (mk_query (Some "secgroup001") "Locked")
           (e := forbidden) eq_refl eq_refl).
Defined.

Lemma existing_name_gives_one_resource_witness :
  exists nr,
    fst (run_sample testing_provider false query_one) =
      Returned {| changed := false; check_mode := false; results := [nr] |} /\
    nr = serialize_obj sample_flatten "secgroup001" AZURE_OBJECT_CLASS /\
    object_class nr = "NetworkSecurityGroup".
Proof.
  exact (proj2 (existing_name_gives_one_resource sample_truthy sample_flatten
                  testing_provider false query_one)
               "secgroup001" "secgroup001" eq_refl eq_refl eq_refl).
Defined.

Lemma falsy_item_is_not_serialized_witness :
  fst (run_sample silent_provider false query_one) =
    Returned {| changed := false; check_mode := false; results := [] |}.
Proof.
  exact (proj2 (falsy_item_is_not_serialized sample_truthy sample_flatten
                  silent_provider false query_one (item := PyNone)
                  eq_refl eq_refl eq_refl)).
Defined.

Lemma changed_is_always_false_witness :
  changed {| changed := false;
             check_mode := true;
             results := [serialize_obj sample_flatten "secgroup001"
                                       "NetworkSecurityGroup"] |} = false.
Proof.
  exact (proj2 (changed_is_always_false sample_truthy sample_flatten
                  testing_provider true query_one)
               _ eq_refl).
Defined.

Lemma same_query_same_envelope_witness :
  run_sample testing_provider false query_one =
  run_sample other_provider false query_one.
Proof.
  exact (proj1 (same_query_same_envelope sample_truthy sample_flatten
                  testing_provider other_provider false query_one eq_refl)).
Defined.

(** *** Further properties on the samples *)

Lemma listing_interrupt_propagates_witness :
  fst (run_sample interrupted_provider false query_all) =
    Raised keyboard_interrupt /\
  results (self_results
             (self (snd (run_sample interrupted_provider false query_all)))) =
    [].
Proof.
  exact (listing_interrupt_propagates sample_truthy sample_flatten
           interrupted_provider false query_all (e := keyboard_interrupt)
           eq_refl eq_refl eq_refl).
Defined.


Lemma exit_only_from_listing_witness :
  q_name query_all = None /\
  exists e,
    nsg_list unreachable_provider (Some (q_resource_group query_all)) =
      Raise e /\
    isinstance_Exception e = true /\
    "Error listing all items - Connection aborted" =
      String.append "Error listing all items - " (exc_str e).
Proof.
  exact (exit_only_from_listing sample_truthy sample_flatten
           unreachable_provider false query_all
           (msg := "Error listing all items - Connection aborted")
           eq_refl).
Defined.


Lemma results_come_from_provider_witness :
  exists r,
    serialize_obj sample_flatten "secgroup002" "NetworkSecurityGroup" =
      serialize_obj sample_flatten r AZURE_OBJECT_CLASS /\
    exists raws,
      nsg_list testing_provider (Some "Testing") = Ret raws /\ In r raws.
Proof.
  exact (results_come_from_provider sample_truthy sample_flatten
           testing_provider true query_all
           (env := {| changed := false;
                      check_mode := true;
                      results := map (fun r =>
                                        serialize_obj sample_flatten r
                                                      AZURE_OBJECT_CLASS)
                                     ["secgroup002"; "secgroup001";
                                      "secgroup001"] |})
           eq_refl
           (serialize_obj sample_flatten "secgroup002" "NetworkSecurityGroup")
           (or_introl eq_refl)).
Defined.

Lemma kwargs_reduce_to_query_witness :
  exec_module_impl_kwargs sample_truthy sample_flatten testing_provider
                          params_one fresh_instance =
    exec_module_impl sample_truthy sample_flatten testing_provider
                     query_one fresh_instance /\
  exec_module_impl_kwargs sample_truthy sample_flatten testing_provider
                          params_one_bare fresh_instance =
    exec_module_impl sample_truthy sample_flatten testing_provider
                     query_one fresh_instance.
Proof.
  split.
  - exact (kwargs_reduce_to_query sample_truthy sample_flatten
             testing_provider params_one (n := Some "secgroup001")
             (g := "Testing") fresh_instance eq_refl eq_refl).
  - exact (kwargs_reduce_to_query sample_truthy sample_flatten
             testing_provider params_one_bare (n := Some "secgroup001")
             (g := "Testing") fresh_instance eq_refl eq_refl).
Defined.

Lemma missing_key_is_a_key_error_witness :
  let r := exec_module_impl_kwargs sample_truthy sample_flatten
                                   testing_provider params_no_group
                                   fresh_instance in
  (exists key, In key (map fst module_arg_spec) /\
               ~ In key (map fst params_no_group) /\
               fst r = Raised (KeyError key)) /\
  trace (snd r) = [] /\
  self_results (self (snd r)) =
    {| changed := false; check_mode := false; results := [] |}.
Proof.
  apply (missing_key_is_a_key_error sample_truthy sample_flatten
           testing_provider params_no_group fresh_instance).
  right. simpl. intros [H | [H | []]]; discriminate H.
Defined.
